(** * useV3Trade: the fallback-routing hooks of [src/hooks/useV3Trade.ts]

    The module exports two React hooks, [useV3TradeExactIn] and
    [useV3TradeExactOut].  Each one calls three other hooks in a fixed order
    (the debouncer, the routing-API quote and the local v3 quote) and merges
    what they return into one [{state, trade, router}] object.

    The three collaborators live in other modules.  They are modelled as the
    primitive calls of a small free monad, [Hook]: a hook body is a finite
    tree of calls, and a _handler_ gives each call its answer while threading
    the collaborators' own store.  Running a hook body against a handler
    yields the returned object, the final store and the log of the calls made
    together with their answers. *)

From Stdlib Require Import ZArith List Bool String.
From ExtLib Require Import Structures.Monad.
Import ListNotations.
Import MonadNotation.
Local Open Scope monad_scope.
Local Open Scope Z_scope.

Set Implicit Arguments.

(** ** Enumerations *)

(** [export enum V3TradeState { LOADING, INVALID, NO_ROUTE_FOUND, VALID, SYNCING }] *)
Inductive V3TradeState : Type :=
| LOADING
| INVALID
| NO_ROUTE_FOUND
| VALID
| SYNCING.

(** A TypeScript numeric enum: the members are the numbers 0, 1, 2, ... in
    declaration order. *)
Definition V3TradeState_value (s : V3TradeState) : Z :=
  match s with
  | LOADING => 0
  | INVALID => 1
  | NO_ROUTE_FOUND => 2
  | VALID => 3
  | SYNCING => 4
  end.

(** [export enum RouterVersion { LEGACY, UNISWAP_API }] *)
Inductive RouterVersion : Type :=
| LEGACY
| UNISWAP_API.

(** [TradeType] of [@uniswap/sdk-core]; it only indexes the type of trades. *)
Inductive TradeType : Type :=
| EXACT_INPUT
| EXACT_OUTPUT.

(** [Array.prototype.includes] on an array of enum members: the members are
    numbers, compared by value. *)
Definition includes (l : list V3TradeState) (x : V3TradeState) : bool :=
  existsb (fun y => V3TradeState_value y =? V3TradeState_value x) l.

(** [const shouldUseFallback = (state) => [V3TradeState.NO_ROUTE_FOUND].includes(state)] *)
Definition shouldUseFallback (state : V3TradeState) : bool :=
  includes [NO_ROUTE_FOUND] state.

(** ** Objects *)

(** What a quote source returns: [{ state, trade }], [trade] possibly [null]. *)
Record Quote (T : Type) : Type := mkQuote {
  quote_state : V3TradeState;
  quote_trade : option T
}.

(** What the hooks of this module return: [{ state, trade, router }]. *)
Record Result (T : Type) : Type := mkResult {
  state : V3TradeState;
  trade : option T;
  router : RouterVersion
}.

(** [{ ...q, router: r }]: the fields of [q] copied, [router] set to [r]. *)
Definition withRouter {T : Type} (q : Quote T) (r : RouterVersion) : Result T :=
  {| state := quote_state q; trade := quote_trade q; router := r |}.

(** ** The hook monad *)

Section Hooks.

(** [CurrencyAmount<Currency>], [Currency] and [Trade<_, _, tradeType>] are
    opaque to this module: it only passes them on. *)
Context {Amount Currency : Type} {Trade : TradeType -> Type}.

(** The calls a hook body of this module makes, indexed by what they
    return.  An optional argument is an [option]; [None] is [undefined]. *)
Inductive HookE : Type -> Type :=
| UseDebounce (value : option Amount) (delay : Z) :
    HookE (option Amount * bool)
| UseRouterTradeExactIn (amountIn : option Amount) (currencyOut : option Currency) :
    HookE (Quote (Trade EXACT_INPUT))
| UseRouterTradeExactOut (currencyIn : option Currency) (amountOut : option Amount) :
    HookE (Quote (Trade EXACT_OUTPUT))
| UseLocalV3TradeExactIn (amountIn : option Amount) (currencyOut : option Currency) :
    HookE (Quote (Trade EXACT_INPUT))
| UseLocalV3TradeExactOut (currencyIn : option Currency) (amountOut : option Amount) :
    HookE (Quote (Trade EXACT_OUTPUT)).

(** A hook body: it returns, or makes a call and goes on with the answer. *)
Inductive Hook (R : Type) : Type :=
| Done (r : R)
| Call (X : Type) (e : HookE X) (k : X -> Hook R).

Arguments Done {R} r.
Arguments Call {R X} e k.

Fixpoint hook_bind {A B : Type} (p : Hook A) (f : A -> Hook B) : Hook B :=
  match p with
  | Done a => f a
  | Call e k => Call e (fun x => hook_bind (k x) f)
  end.

#[export] Instance Monad_Hook : Monad Hook :=
  {| ret := fun _ r => Done r;
     bind := fun _ _ p f => hook_bind p f |}.

Definition call {X : Type} (e : HookE X) : Hook X := Call e Done.

(** The imported hooks. *)
Definition useDebounce (value : option Amount) (delay : Z) :=
  call (UseDebounce value delay).
Definition useRouterTradeExactIn amountIn currencyOut :=
  call (UseRouterTradeExactIn amountIn currencyOut).
Definition useRouterTradeExactOut currencyIn amountOut :=
  call (UseRouterTradeExactOut currencyIn amountOut).
Definition useLocalV3TradeExactIn amountIn currencyOut :=
  call (UseLocalV3TradeExactIn amountIn currencyOut).
Definition useLocalV3TradeExactOut currencyIn amountOut :=
  call (UseLocalV3TradeExactOut currencyIn amountOut).

(** *** Running a hook body *)

(** One entry of the call log: the call, its arguments and its answer. *)
Inductive Reading : Type :=
| DebounceR (value : option Amount) (delay : Z) (out : option Amount * bool)
| RouterExactInR (amountIn : option Amount) (currencyOut : option Currency)
    (out : Quote (Trade EXACT_INPUT))
| RouterExactOutR (currencyIn : option Currency) (amountOut : option Amount)
    (out : Quote (Trade EXACT_OUTPUT))
| LocalExactInR (amountIn : option Amount) (currencyOut : option Currency)
    (out : Quote (Trade EXACT_INPUT))
| LocalExactOutR (currencyIn : option Currency) (amountOut : option Amount)
    (out : Quote (Trade EXACT_OUTPUT)).

Definition reading {X : Type} (e : HookE X) : X -> Reading :=
  match e in HookE X return X -> Reading with
  | UseDebounce v d => DebounceR v d
  | UseRouterTradeExactIn a c => RouterExactInR a c
  | UseRouterTradeExactOut c a => RouterExactOutR c a
  | UseLocalV3TradeExactIn a c => LocalExactInR a c
  | UseLocalV3TradeExactOut c a => LocalExactOutR c a
  end.

(** The collaborators of one render: every call is answered from the
    collaborators' store [S], which the call may update.  The hook body has
    no access to the store. *)
Definition Handler (S : Type) : Type := forall X : Type, HookE X -> S -> X * S.

Record Render (S R : Type) : Type := mkRender {
  result : R;
  store : S;
  log : list Reading
}.

Fixpoint exec {S R : Type} (h : Handler S) (p : Hook R) (s : S) : Render S R :=
  match p with
  | Done r => {| result := r; store := s; log := [] |}
  | Call e k =>
      let (x, s') := h _ e s in
      let r := exec h (k x) s' in
      {| result := result r; store := store r; log := reading e x :: log r |}
  end.

(** *** The exported hooks *)

Definition useV3TradeExactIn
    (amountIn : option Amount) (currencyOut : option Currency)
  : Hook (Result (Trade EXACT_INPUT)) :=
  '(debouncedAmountIn, debouncing) <- useDebounce amountIn 250 ;;
  (* attempt to use multi-route trade *)
  multiRouteTradeExactIn <- useRouterTradeExactIn debouncedAmountIn currencyOut ;;
  let useFallback :=
    negb debouncing && shouldUseFallback (quote_state multiRouteTradeExactIn) in
  (* only local router if multi-route trade failed *)
  bestV3TradeExactIn <-
    useLocalV3TradeExactIn
      (if useFallback then debouncedAmountIn else None)
      (if useFallback then currencyOut else None) ;;
  if debouncing then
    ret {| state := LOADING; trade := None; router := UNISWAP_API |}
  else
    ret (if useFallback
         then withRouter bestV3TradeExactIn LEGACY
         else withRouter multiRouteTradeExactIn UNISWAP_API).

Definition useV3TradeExactOut
    (currencyIn : option Currency) (amountOut : option Amount)
  : Hook (Result (Trade EXACT_OUTPUT)) :=
  '(debouncedAmountOut, debouncing) <- useDebounce amountOut 250 ;;
  (* attempt to use multi-route trade *)
  multiRouteTradeExactOut <- useRouterTradeExactOut currencyIn debouncedAmountOut ;;
  let useFallback :=
    negb debouncing && shouldUseFallback (quote_state multiRouteTradeExactOut) in
  (* only local router if multi-route trade failed *)
  bestV3TradeExactOut <-
    useLocalV3TradeExactOut
      (if useFallback then currencyIn else None)
      (if useFallback then debouncedAmountOut else None) ;;
  if debouncing then
    ret {| state := LOADING; trade := None; router := UNISWAP_API |}
  else
    ret (if useFallback
         then withRouter bestV3TradeExactOut LEGACY
         else withRouter multiRouteTradeExactOut UNISWAP_API).

(** *** Vocabulary for the statements *)

(** Line 37 / 69 of the source, [!debouncing && shouldUseFallback(remote.state)],
    as a function of the two readings it depends on. *)
Definition fallbackActive {T : Type} (debouncing : bool) (remote : Quote T) : bool :=
  negb debouncing && shouldUseFallback (quote_state remote).

(** The source whose quote is forwarded once debouncing has settled. *)
Definition selectedQuote {T : Type} (debouncing : bool) (remote local : Quote T)
  : Quote T :=
  if fallbackActive debouncing remote then local else remote.

(** The object built on lines 46 and 78. *)
Definition debouncingResult {T : Type} : Result T :=
  {| state := LOADING; trade := None; router := UNISWAP_API |}.

(** [trade !== null] exactly when [state === VALID]. *)
Definition coupledQuote {T : Type} (q : Quote T) : Prop :=
  quote_trade q <> None <-> quote_state q = VALID.

Definition coupled {T : Type} (r : Result T) : Prop :=
  trade r <> None <-> state r = VALID.

(** An inert object: [LOADING] with no trade. *)
Definition inertQuote {T : Type} (q : Quote T) : Prop :=
  quote_state q = LOADING /\ quote_trade q = None.

Definition inert {T : Type} (r : Result T) : Prop :=
  state r = LOADING /\ trade r = None.

Definition isNull {T : Type} (t : option T) : bool :=
  match t with
  | None => true
  | Some _ => false
  end.

(** What a caller can tell of an object without looking into the trade. *)
Definition quoteShape {T : Type} (q : Quote T) : V3TradeState * bool :=
  (quote_state q, isNull (quote_trade q)).

Definition decision {T : Type} (r : Result T) : V3TradeState * bool * RouterVersion :=
  (state r, isNull (trade r), router r).

(** What a call hands back to the hook body, without the arguments it was
    called with and without the debounced amount: the debouncing flag or the
    quote. *)
Inductive Answer : Type :=
| DebouncingA (debouncing : bool)
| RemoteExactInA (out : Quote (Trade EXACT_INPUT))
| RemoteExactOutA (out : Quote (Trade EXACT_OUTPUT))
| LocalExactInA (out : Quote (Trade EXACT_INPUT))
| LocalExactOutA (out : Quote (Trade EXACT_OUTPUT)).

Definition answer (r : Reading) : Answer :=
  match r with
  | DebounceR _ _ (_, debouncing) => DebouncingA debouncing
  | RouterExactInR _ _ out => RemoteExactInA out
  | RouterExactOutR _ _ out => RemoteExactOutA out
  | LocalExactInR _ _ out => LocalExactInA out
  | LocalExactOutR _ _ out => LocalExactOutA out
  end.

(** *** The policy as the specification words it

    Section 4.4 of the specification, steps 1 to 6, for one trade
    direction: [quoteRemote] and [quoteLocal] take the debounced amount
    first and the fixed currency second. *)
Definition fallbackPolicy {T : Type}
    (quoteRemote quoteLocal : option Amount -> option Currency -> Hook (Quote T))
    (amount : option Amount) (fixedCurrency : option Currency)
  : Hook (Result T) :=
  (* 1. read the debouncer on the variable leg *)
  '(debouncedAmount, debouncing) <- useDebounce amount 250 ;;
  (* 2. unconditionally query the remote source *)
  remoteResult <- quoteRemote debouncedAmount fixedCurrency ;;
  (* 3. fallback only once settled and only on NO_ROUTE_FOUND *)
  let useFallback :=
    negb debouncing && shouldUseFallback (quote_state remoteResult) in
  (* 4. the local source, suppressed unless the fallback is active *)
  localResult <-
    (if useFallback
     then quoteLocal debouncedAmount fixedCurrency
     else quoteLocal None None) ;;
  (* 5. debouncing dominates *)
  if debouncing then ret debouncingResult
  (* 6. otherwise the local result as LEGACY or the remote one as UNISWAP_API *)
  else if useFallback then ret (withRouter localResult LEGACY)
  else ret (withRouter remoteResult UNISWAP_API).

(** Two hook bodies agree when every handler runs them alike. *)
Definition hook_equiv {R : Type} (p q : Hook R) : Prop :=
  forall (S : Type) (h : Handler S) (s : S), exec h p s = exec h q s.

End Hooks.

Arguments Done {Amount Currency Trade R} r.
Arguments Call {Amount Currency Trade R X} e k.
Arguments HookE : clear implicits.
Arguments Hook : clear implicits.
Arguments Reading : clear implicits.
Arguments Handler : clear implicits.

(** ** A concrete instance

    Amounts are a quantity and a currency symbol, currencies are symbols and
    trades are named.  The collaborators answer from a fixed snapshot and
    count the calls made to them in their store. *)

Module Demo.

Local Open Scope string_scope.

Definition Amount : Type := Z * string.
Definition Currency : Type := string.
Definition Trade (_ : TradeType) : Type := string.

Record Snapshot : Type := mkSnapshot {
  debounced : option Amount * bool;
  remoteIn : Quote string;
  localIn : Quote string;
  remoteOut : Quote string;
  localOut : Quote string
}.

Definition idle : Quote string := {| quote_state := LOADING; quote_trade := None |}.

(** The local source is idle when it is given nothing to quote. *)
Definition gated {A B : Type} (a : option A) (b : option B) (q : Quote string)
  : Quote string :=
  match a, b with
  | None, None => idle
  | _, _ => q
  end.

Definition collaborators (sn : Snapshot) : Handler Amount Currency Trade nat :=
  fun X e =>
    match e in HookE _ _ _ X return nat -> X * nat with
    | UseDebounce _ _ => fun n => (debounced sn, S n)
    | UseRouterTradeExactIn _ _ => fun n => (remoteIn sn, S n)
    | UseRouterTradeExactOut _ _ => fun n => (remoteOut sn, S n)
    | UseLocalV3TradeExactIn a c => fun n => (gated a c (localIn sn), S n)
    | UseLocalV3TradeExactOut c a => fun n => (gated c a (localOut sn), S n)
    end.

Definition usdc5 : option Amount := Some (5, "USDC").
Definition usdc10 : option Amount := Some (10, "USDC").
Definition eth : option Currency := Some "ETH".

Definition quote (st : V3TradeState) (t : option string) : Quote string :=
  {| quote_state := st; quote_trade := t |}.

(** Both directions of a snapshot hold the same quotes. *)
Definition snapshot (d : option Amount * bool) (remote local : Quote string)
  : Snapshot :=
  {| debounced := d;
     remoteIn := remote; localIn := local;
     remoteOut := remote; localOut := local |}.

(** Scenario A: the amount has just changed from 5 to 10 USDC while the
    routing API still holds a valid quote for the old amount. *)
Definition scenarioA : Snapshot :=
  snapshot (usdc5, true) (quote VALID (Some "tradeX")) idle.

(** Scenario B: settled, the routing API has a quote. *)
Definition scenarioB : Snapshot :=
  snapshot (usdc10, false) (quote VALID (Some "tradeX")) (quote VALID (Some "tradeY")).

(** Scenario C: settled, no route from the API, the local router finds one. *)
Definition scenarioC : Snapshot :=
  snapshot (usdc10, false) (quote NO_ROUTE_FOUND None) (quote VALID (Some "tradeY")).

(** Scenario D: settled, the API rejects the input. *)
Definition scenarioD : Snapshot :=
  snapshot (usdc10, false) (quote INVALID None) (quote VALID (Some "tradeY")).

(** Scenario E: settled, neither source finds a route. *)
Definition scenarioE : Snapshot :=
  snapshot (usdc10, false) (quote NO_ROUTE_FOUND None) (quote NO_ROUTE_FOUND None).

(** The routing API is refreshing a quote it already has. *)
Definition syncing : Snapshot :=
  snapshot (usdc10, false) (quote SYNCING (Some "tradeX")) idle.

(** The routing API has started over and still holds the trade it had. *)
Definition stale : Snapshot :=
  snapshot (usdc10, false) (quote LOADING (Some "tradeX")) idle.

(** Nothing entered yet: the debouncer has settled on [undefined] and the
    routing API reports the missing amount as [INVALID]. *)
Definition blank : Snapshot :=
  snapshot (None, false) (quote INVALID None) idle.

Definition renderIn (sn : Snapshot)
    (amountIn : option Amount) (currencyOut : option Currency) :=
  exec (collaborators sn) (useV3TradeExactIn amountIn currencyOut) 0%nat.

Definition renderOut (sn : Snapshot)
    (currencyIn : option Currency) (amountOut : option Amount) :=
  exec (collaborators sn) (useV3TradeExactOut currencyIn amountOut) 0%nat.

End Demo.

(** * Properties *)

(** ** The enumerations *)

Lemma V3TradeState_value_inj (a b : V3TradeState) :
  V3TradeState_value a = V3TradeState_value b -> a = b.
Proof. destruct a, b; simpl; intros H; try reflexivity; discriminate H. Qed.

Lemma includes_In (l : list V3TradeState) (x : V3TradeState) :
  includes l x = true <-> In x l.
Proof.
  unfold includes. rewrite existsb_exists. split.
  - intros (y & Hy & E). apply Z.eqb_eq, V3TradeState_value_inj in E.
    now subst y.
  - intros H. exists x. split; [assumption | apply Z.eqb_refl].
Qed.

Lemma shouldUseFallback_true (st : V3TradeState) :
  shouldUseFallback st = true <-> st = NO_ROUTE_FOUND.
Proof.
  unfold shouldUseFallback. rewrite includes_In. simpl. intuition congruence.
Qed.

Lemma shouldUseFallback_false (st : V3TradeState) :
  shouldUseFallback st = false <-> st <> NO_ROUTE_FOUND.
Proof.
  rewrite <- shouldUseFallback_true. destruct (shouldUseFallback st); intuition congruence.
Qed.

Section Runs.

Context {Amount Currency : Type} {Trade : TradeType -> Type}.
Context {S : Type} (h : Handler Amount Currency Trade S).

Lemma fallbackActive_true {T : Type} (debouncing : bool) (remote : Quote T) :
  fallbackActive debouncing remote = true <->
  debouncing = false /\ quote_state remote = NO_ROUTE_FOUND.
Proof.
  unfold fallbackActive.
  rewrite andb_true_iff, negb_true_iff, shouldUseFallback_true. reflexivity.
Qed.

Lemma fallbackActive_false {T : Type} (debouncing : bool) (remote : Quote T) :
  fallbackActive debouncing remote = false <->
  debouncing = true \/ quote_state remote <> NO_ROUTE_FOUND.
Proof.
  unfold fallbackActive.
  rewrite andb_false_iff, negb_false_iff, shouldUseFallback_false. reflexivity.
Qed.

(** *** One render, call by call

    Whatever the collaborators answer, a render of [useV3TradeExactIn]
    makes exactly three calls, in this order and with these arguments, and
    returns the object below. *)
Lemma useV3TradeExactIn_run (s : S) amountIn currencyOut :
  exists d (deb : bool) remote local s',
    exec h (useV3TradeExactIn amountIn currencyOut) s =
    {| result :=
         if deb then debouncingResult
         else if fallbackActive deb remote then withRouter local LEGACY
         else withRouter remote UNISWAP_API;
       store := s';
       log :=
         [ DebounceR amountIn 250 (d, deb);
           RouterExactInR d currencyOut remote;
           LocalExactInR
             (if fallbackActive deb remote then d else None)
             (if fallbackActive deb remote then currencyOut else None)
             local ] |}.
Proof.
  unfold useV3TradeExactIn. cbn [bind Monad_Hook hook_bind useDebounce call exec].
  destruct (h (UseDebounce amountIn 250) s) as [[d deb] s1].
  cbn [hook_bind useRouterTradeExactIn call exec].
  destruct (h (UseRouterTradeExactIn d currencyOut) s1) as [remote s2].
  cbn [hook_bind useLocalV3TradeExactIn call exec].
  fold (fallbackActive deb remote).
  destruct (h (UseLocalV3TradeExactIn
                 (if fallbackActive deb remote then d else None)
                 (if fallbackActive deb remote then currencyOut else None)) s2)
    as [local s3].
  exists d, deb, remote, local, s3.
  destruct deb; reflexivity.
Qed.

Lemma useV3TradeExactOut_run (s : S) currencyIn amountOut :
  exists d (deb : bool) remote local s',
    exec h (useV3TradeExactOut currencyIn amountOut) s =
    {| result :=
         if deb then debouncingResult
         else if fallbackActive deb remote then withRouter local LEGACY
         else withRouter remote UNISWAP_API;
       store := s';
       log :=
         [ DebounceR amountOut 250 (d, deb);
           RouterExactOutR currencyIn d remote;
           LocalExactOutR
             (if fallbackActive deb remote then currencyIn else None)
             (if fallbackActive deb remote then d else None)
             local ] |}.
Proof.
  unfold useV3TradeExactOut. cbn [bind Monad_Hook hook_bind useDebounce call exec].
  destruct (h (UseDebounce amountOut 250) s) as [[d deb] s1].
  cbn [hook_bind useRouterTradeExactOut call exec].
  destruct (h (UseRouterTradeExactOut currencyIn d) s1) as [remote s2].
  cbn [hook_bind useLocalV3TradeExactOut call exec].
  fold (fallbackActive deb remote).
  destruct (h (UseLocalV3TradeExactOut
                 (if fallbackActive deb remote then currencyIn else None)
                 (if fallbackActive deb remote then d else None)) s2)
    as [local s3].
  exists d, deb, remote, local, s3.
  destruct deb; reflexivity.
Qed.

End Runs.

(** Equations between readings: eliminate the name on the right, the one the
    statement introduced, and keep the arguments of the hook. *)
Ltac name_readings :=
  repeat match goal with
         | E : _ = ?y |- _ => is_var y; subst y
         | E : ?x = _ |- _ => is_var x; subst x
         end.

(** Naming the three readings of a render: rewrite the run with its
    call-by-call form and match it against the log at hand. *)
Ltac read_in h s a c H :=
  let E := fresh "E" in
  destruct (useV3TradeExactIn_run h s a c) as (? & ? & ? & ? & ? & E);
  rewrite E in H; rewrite ?E; cbn [result log store] in H |- *;
  injection H; clear H; intros; name_readings.

Ltac read_out h s c a H :=
  let E := fresh "E" in
  destruct (useV3TradeExactOut_run h s c a) as (? & ? & ? & ? & ? & E);
  rewrite E in H; rewrite ?E; cbn [result log store] in H |- *;
  injection H; clear H; intros; name_readings.

(** ** Debounce dominance *)

(** C1.  In every render whose debouncer reading reports [debouncing = true],
    [useV3TradeExactIn] and [useV3TradeExactOut] return exactly
    [{state: LOADING, trade: null, router: UNISWAP_API}], whatever the remote
    and the local source answered in that render. *)
Theorem debounce_dominance
    (Amount Currency : Type) (Trade : TradeType -> Type) (S : Type)
    (h : Handler Amount Currency Trade S) (s : S)
    (amount : option Amount) (currency : option Currency) :
  (forall v w d ra rc remote la lc local,
      log (exec h (useV3TradeExactIn amount currency) s) =
        [DebounceR v w (d, true); RouterExactInR ra rc remote; LocalExactInR la lc local] ->
      result (exec h (useV3TradeExactIn amount currency) s) =
        {| state := LOADING; trade := None; router := UNISWAP_API |})
  /\
  (forall v w d rc ra remote lc la local,
      log (exec h (useV3TradeExactOut currency amount) s) =
        [DebounceR v w (d, true); RouterExactOutR rc ra remote; LocalExactOutR lc la local] ->
      result (exec h (useV3TradeExactOut currency amount) s) =
        {| state := LOADING; trade := None; router := UNISWAP_API |}).
Proof.
  split; intros * H.
  - read_in h s amount currency H. reflexivity.
  - read_out h s currency amount H. reflexivity.
Qed.

(** Scenario A: a valid remote quote for the old amount is overridden. *)
Lemma debounce_dominance_witness :
  (log (Demo.renderIn Demo.scenarioA Demo.usdc10 Demo.eth) =
     [DebounceR Demo.usdc10 250 (Demo.usdc5, true);
      RouterExactInR Demo.usdc5 Demo.eth (Demo.quote VALID (Some "tradeX"%string));
      LocalExactInR None None Demo.idle]
   /\ result (Demo.renderIn Demo.scenarioA Demo.usdc10 Demo.eth) =
        {| state := LOADING; trade := None; router := UNISWAP_API |})
  /\
  (log (Demo.renderOut Demo.scenarioA Demo.eth Demo.usdc10) =
     [DebounceR Demo.usdc10 250 (Demo.usdc5, true);
      RouterExactOutR Demo.eth Demo.usdc5 (Demo.quote VALID (Some "tradeX"%string));
      LocalExactOutR None None Demo.idle]
   /\ result (Demo.renderOut Demo.scenarioA Demo.eth Demo.usdc10) =
        {| state := LOADING; trade := None; router := UNISWAP_API |}).
Proof.
  split; (split; [reflexivity | ]).
  - eapply (proj1 (@debounce_dominance _ _ _ _
                     (Demo.collaborators Demo.scenarioA) 0%nat Demo.usdc10 Demo.eth)).
    reflexivity.
  - eapply (proj2 (@debounce_dominance _ _ _ _
                     (Demo.collaborators Demo.scenarioA) 0%nat Demo.usdc10 Demo.eth)).
    reflexivity.
Defined.

(** ** When the fallback is active *)

(** C2.  In every render the returned router is [LEGACY] if and only if the
    debouncer reading has [debouncing = false] and the remote reading has
    state [NO_ROUTE_FOUND]; with a remote state among [INVALID], [LOADING],
    [SYNCING], [VALID], or while debouncing, the router is [UNISWAP_API]. *)
Theorem fallback_trigger_exact
    (Amount Currency : Type) (Trade : TradeType -> Type) (S : Type)
    (h : Handler Amount Currency Trade S) (s : S)
    (amount : option Amount) (currency : option Currency) :
  (forall v w d deb ra rc remote la lc local,
      log (exec h (useV3TradeExactIn amount currency) s) =
        [DebounceR v w (d, deb); RouterExactInR ra rc remote; LocalExactInR la lc local] ->
      (router (result (exec h (useV3TradeExactIn amount currency) s)) = LEGACY <->
       deb = false /\ quote_state remote = NO_ROUTE_FOUND)
      /\
      (deb = true \/ In (quote_state remote) [INVALID; LOADING; SYNCING; VALID] ->
       router (result (exec h (useV3TradeExactIn amount currency) s)) = UNISWAP_API))
  /\
  (forall v w d deb rc ra remote lc la local,
      log (exec h (useV3TradeExactOut currency amount) s) =
        [DebounceR v w (d, deb); RouterExactOutR rc ra remote; LocalExactOutR lc la local] ->
      (router (result (exec h (useV3TradeExactOut currency amount) s)) = LEGACY <->
       deb = false /\ quote_state remote = NO_ROUTE_FOUND)
      /\
      (deb = true \/ In (quote_state remote) [INVALID; LOADING; SYNCING; VALID] ->
       router (result (exec h (useV3TradeExactOut currency amount) s)) = UNISWAP_API)).
Proof.
  assert (tag : forall (T : Type) (deb : bool) (remote local : Quote T),
             let r := if deb then debouncingResult
                      else if fallbackActive deb remote then withRouter local LEGACY
                      else withRouter remote UNISWAP_API in
             (router r = LEGACY <-> deb = false /\ quote_state remote = NO_ROUTE_FOUND)
             /\ (deb = true \/ In (quote_state remote) [INVALID; LOADING; SYNCING; VALID] ->
                 router r = UNISWAP_API)).
  { intros T deb remote local.
    destruct deb; cbn.
    - split; [split; [discriminate | intros [E _]; discriminate E] | reflexivity].
    - unfold fallbackActive. cbn.
      destruct (quote_state remote); cbn; intuition (discriminate || congruence). }
  split; intros * H.
  - read_in h s amount currency H. apply tag.
  - read_out h s currency amount H. apply tag.
Qed.

(** Scenario C turns the fallback on, scenario D (an [INVALID] remote state)
    does not. *)
Lemma fallback_trigger_exact_witness :
  router (result (Demo.renderIn Demo.scenarioC Demo.usdc10 Demo.eth)) = LEGACY
  /\ router (result (Demo.renderOut Demo.scenarioD Demo.eth Demo.usdc10)) = UNISWAP_API.
Proof.
  split.
  - eapply (proj1 (proj1 (@fallback_trigger_exact _ _ _ _
              (Demo.collaborators Demo.scenarioC) 0%nat Demo.usdc10 Demo.eth)
              _ _ _ _ _ _ _ _ _ _ eq_refl)).
    split; reflexivity.
  - eapply (proj2 (proj2 (@fallback_trigger_exact _ _ _ _
              (Demo.collaborators Demo.scenarioD) 0%nat Demo.usdc10 Demo.eth)
              _ _ _ _ _ _ _ _ _ _ eq_refl)).
    right. simpl. left. reflexivity.
Defined.

(** ** What the local source is asked *)

(** C4.  In every render in which the fallback is not active (the debouncer
    reading has [debouncing = true], or the remote state is not
    [NO_ROUTE_FOUND]) the local source is called with both arguments
    [undefined]; when it is active the local source is called with the
    debounced amount and the currency the hook was given; so a defined
    argument reaches the local source only when the fallback is active. *)
Theorem local_suppression
    (Amount Currency : Type) (Trade : TradeType -> Type) (S : Type)
    (h : Handler Amount Currency Trade S) (s : S)
    (amount : option Amount) (currency : option Currency) :
  (forall v w d deb ra rc remote la lc local,
      log (exec h (useV3TradeExactIn amount currency) s) =
        [DebounceR v w (d, deb); RouterExactInR ra rc remote; LocalExactInR la lc local] ->
      (deb = true \/ quote_state remote <> NO_ROUTE_FOUND -> la = None /\ lc = None)
      /\ (deb = false /\ quote_state remote = NO_ROUTE_FOUND -> la = d /\ lc = currency)
      /\ (la <> None \/ lc <> None -> deb = false /\ quote_state remote = NO_ROUTE_FOUND))
  /\
  (forall v w d deb rc ra remote lc la local,
      log (exec h (useV3TradeExactOut currency amount) s) =
        [DebounceR v w (d, deb); RouterExactOutR rc ra remote; LocalExactOutR lc la local] ->
      (deb = true \/ quote_state remote <> NO_ROUTE_FOUND -> la = None /\ lc = None)
      /\ (deb = false /\ quote_state remote = NO_ROUTE_FOUND -> la = d /\ lc = currency)
      /\ (la <> None \/ lc <> None -> deb = false /\ quote_state remote = NO_ROUTE_FOUND)).
Proof.
  assert (gate : forall (T : Type) (deb : bool) (remote : Quote T) (d : option Amount),
             let la := if fallbackActive deb remote then d else None in
             let lc := if fallbackActive deb remote then currency else None in
             (deb = true \/ quote_state remote <> NO_ROUTE_FOUND -> la = None /\ lc = None)
             /\ (deb = false /\ quote_state remote = NO_ROUTE_FOUND -> la = d /\ lc = currency)
             /\ (la <> None \/ lc <> None ->
                 deb = false /\ quote_state remote = NO_ROUTE_FOUND)).
  { intros T deb remote d. cbv zeta.
    destruct (fallbackActive deb remote) eqn:F.
    - apply fallbackActive_true in F. intuition congruence.
    - apply fallbackActive_false in F. intuition congruence. }
  split; intros * H.
  - read_in h s amount currency H. apply gate.
  - read_out h s currency amount H. apply gate.
Qed.

(** Scenario D: the local source receives [(undefined, undefined)];
    scenario C: it receives the debounced amount and the currency. *)
Lemma local_suppression_witness :
  log (Demo.renderIn Demo.scenarioD Demo.usdc10 Demo.eth) =
    [DebounceR Demo.usdc10 250 (Demo.usdc10, false);
     RouterExactInR Demo.usdc10 Demo.eth (Demo.quote INVALID None);
     LocalExactInR None None Demo.idle]
  /\ log (Demo.renderOut Demo.scenarioC Demo.eth Demo.usdc10) =
    [DebounceR Demo.usdc10 250 (Demo.usdc10, false);
     RouterExactOutR Demo.eth Demo.usdc10 (Demo.quote NO_ROUTE_FOUND None);
     LocalExactOutR Demo.eth Demo.usdc10 (Demo.quote VALID (Some "tradeY"%string))]
  /\ (@None Demo.Amount = None /\ @None Demo.Currency = None)
  /\ (Demo.usdc10 = Demo.usdc10 /\ Demo.eth = Demo.eth).
Proof.
  split; [reflexivity | split; [reflexivity | split]].
  - eapply (proj1 (proj1 (@local_suppression _ _ _ _
              (Demo.collaborators Demo.scenarioD) 0%nat Demo.usdc10 Demo.eth)
              _ _ _ _ _ _ _ _ _ _ eq_refl)).
    right. discriminate.
  - eapply (proj1 (proj2 (proj2 (@local_suppression _ _ _ _
              (Demo.collaborators Demo.scenarioC) 0%nat Demo.usdc10 Demo.eth)
              _ _ _ _ _ _ _ _ _ _ eq_refl))).
    split; reflexivity.
Defined.

(** ** What is returned once debouncing has settled *)

(** C5.  In every render whose debouncer reading has [debouncing = false]: if
    the remote state is [NO_ROUTE_FOUND] the returned object is the local
    reading's [{state, trade}] with [router = LEGACY]; otherwise it is the
    remote reading's [{state, trade}] with [router = UNISWAP_API]. *)
Theorem settled_result
    (Amount Currency : Type) (Trade : TradeType -> Type) (S : Type)
    (h : Handler Amount Currency Trade S) (s : S)
    (amount : option Amount) (currency : option Currency) :
  (forall v w d ra rc remote la lc local,
      log (exec h (useV3TradeExactIn amount currency) s) =
        [DebounceR v w (d, false); RouterExactInR ra rc remote; LocalExactInR la lc local] ->
      (quote_state remote = NO_ROUTE_FOUND ->
       result (exec h (useV3TradeExactIn amount currency) s) =
         {| state := quote_state local; trade := quote_trade local; router := LEGACY |})
      /\
      (quote_state remote <> NO_ROUTE_FOUND ->
       result (exec h (useV3TradeExactIn amount currency) s) =
         {| state := quote_state remote; trade := quote_trade remote;
            router := UNISWAP_API |}))
  /\
  (forall v w d rc ra remote lc la local,
      log (exec h (useV3TradeExactOut currency amount) s) =
        [DebounceR v w (d, false); RouterExactOutR rc ra remote; LocalExactOutR lc la local] ->
      (quote_state remote = NO_ROUTE_FOUND ->
       result (exec h (useV3TradeExactOut currency amount) s) =
         {| state := quote_state local; trade := quote_trade local; router := LEGACY |})
      /\
      (quote_state remote <> NO_ROUTE_FOUND ->
       result (exec h (useV3TradeExactOut currency amount) s) =
         {| state := quote_state remote; trade := quote_trade remote;
            router := UNISWAP_API |})).
Proof.
  assert (pick : forall (T : Type) (remote local : Quote T),
             let r := if fallbackActive false remote then withRouter local LEGACY
                      else withRouter remote UNISWAP_API in
             (quote_state remote = NO_ROUTE_FOUND -> r = withRouter local LEGACY)
             /\ (quote_state remote <> NO_ROUTE_FOUND -> r = withRouter remote UNISWAP_API)).
  { intros T remote local. cbv zeta.
    destruct (fallbackActive false remote) eqn:F.
    - apply fallbackActive_true in F. destruct F as [_ F].
      split; [reflexivity | intros N; contradiction].
    - apply fallbackActive_false in F. destruct F as [F | F]; [discriminate F |].
      split; [intros N; contradiction | reflexivity]. }
  split; intros * H.
  - read_in h s amount currency H. apply pick.
  - read_out h s currency amount H. apply pick.
Qed.

(** Scenarios C and E through the fallback, scenario B through the routing API. *)
Lemma settled_result_witness :
  result (Demo.renderIn Demo.scenarioC Demo.usdc10 Demo.eth) =
    {| state := VALID; trade := Some "tradeY"%string; router := LEGACY |}
  /\ result (Demo.renderIn Demo.scenarioE Demo.usdc10 Demo.eth) =
    {| state := NO_ROUTE_FOUND; trade := None; router := LEGACY |}
  /\ result (Demo.renderOut Demo.scenarioB Demo.eth Demo.usdc10) =
    {| state := VALID; trade := Some "tradeX"%string; router := UNISWAP_API |}.
Proof.
  split; [ | split].
  - eapply (proj1 (proj1 (@settled_result _ _ _ _
              (Demo.collaborators Demo.scenarioC) 0%nat Demo.usdc10 Demo.eth)
              _ _ _ _ _ _ _ _ _ eq_refl)).
    reflexivity.
  - eapply (proj1 (proj1 (@settled_result _ _ _ _
              (Demo.collaborators Demo.scenarioE) 0%nat Demo.usdc10 Demo.eth)
              _ _ _ _ _ _ _ _ _ eq_refl)).
    reflexivity.
  - eapply (proj2 (proj2 (@settled_result _ _ _ _
              (Demo.collaborators Demo.scenarioB) 0%nat Demo.usdc10 Demo.eth)
              _ _ _ _ _ _ _ _ _ eq_refl)).
    discriminate.
Defined.

(** ** Trade and state *)

(** C3, as stated, fails: the routing API refreshing a quote answers
    [SYNCING] together with the trade it already has, and the hook forwards
    both, so the returned trade is non-null while the state is not [VALID].
    Likewise a remote [LOADING] that still carries a trade is returned as it
    is: [LOADING] with a non-null trade. *)
Lemma coupling_counterexample :
  let r := result (Demo.renderIn Demo.syncing Demo.usdc10 Demo.eth) in
  let r' := result (Demo.renderOut Demo.stale Demo.eth Demo.usdc10) in
  (r = {| state := SYNCING; trade := Some "tradeX"%string; router := UNISWAP_API |}
   /\ ~ (trade r <> None <-> state r = VALID))
  /\
  (r' = {| state := LOADING; trade := Some "tradeX"%string; router := UNISWAP_API |}
   /\ ~ (state r' = LOADING -> trade r' = None)).
Proof.
  cbv zeta. split; (split; [reflexivity | ]); cbn.
  - intros [H _]. assert (E : SYNCING = VALID) by (apply H; discriminate).
    discriminate E.
  - intros H. specialize (H eq_refl). discriminate H.
Qed.

(** C3, amended.  The hook does not enforce the coupling of trade and state,
    it inherits it: in every render the returned object has a non-null trade
    exactly when its state is [VALID] if and only if debouncing is reported
    or the quote of the selected source (local when the fallback is active,
    remote otherwise) has that property itself; the object returned while
    debouncing is [LOADING] with a null trade. *)
Theorem coupling_inherited
    (Amount Currency : Type) (Trade : TradeType -> Type) (S : Type)
    (h : Handler Amount Currency Trade S) (s : S)
    (amount : option Amount) (currency : option Currency) :
  (forall v w d deb ra rc remote la lc local,
      log (exec h (useV3TradeExactIn amount currency) s) =
        [DebounceR v w (d, deb); RouterExactInR ra rc remote; LocalExactInR la lc local] ->
      (coupled (result (exec h (useV3TradeExactIn amount currency) s)) <->
       deb = true \/ coupledQuote (selectedQuote deb remote local))
      /\ (deb = true ->
          inert (result (exec h (useV3TradeExactIn amount currency) s))))
  /\
  (forall v w d deb rc ra remote lc la local,
      log (exec h (useV3TradeExactOut currency amount) s) =
        [DebounceR v w (d, deb); RouterExactOutR rc ra remote; LocalExactOutR lc la local] ->
      (coupled (result (exec h (useV3TradeExactOut currency amount) s)) <->
       deb = true \/ coupledQuote (selectedQuote deb remote local))
      /\ (deb = true ->
          inert (result (exec h (useV3TradeExactOut currency amount) s)))).
Proof.
  assert (inherit : forall (T : Type) (deb : bool) (remote local : Quote T),
             let r := if deb then debouncingResult
                      else if fallbackActive deb remote then withRouter local LEGACY
                      else withRouter remote UNISWAP_API in
             (coupled r <-> deb = true \/ coupledQuote (selectedQuote deb remote local))
             /\ (deb = true -> inert r)).
  { intros T deb remote local. cbv zeta. unfold selectedQuote.
    destruct deb.
    - split; [ | intros _; split; reflexivity].
      split; [intros _; left; reflexivity | intros _].
      unfold coupled; cbn. split; [intros N; contradiction N; reflexivity | discriminate].
    - split; [ | discriminate].
      destruct (fallbackActive false remote); unfold coupled, coupledQuote; cbn;
        (split; [intros C; right; exact C | intros [E | C]; [discriminate E | exact C]]). }
  split; intros * H.
  - read_in h s amount currency H. apply inherit.
  - read_out h s currency amount H. apply inherit.
Qed.

(** Scenario B: the routing API's quote is coupled, and so is the result. *)
Lemma coupling_inherited_witness :
  coupled (result (Demo.renderIn Demo.scenarioB Demo.usdc10 Demo.eth))
  /\ inert (result (Demo.renderOut Demo.scenarioA Demo.eth Demo.usdc10)).
Proof.
  split.
  - eapply (proj2 (proj1 (proj1 (@coupling_inherited _ _ _ _
              (Demo.collaborators Demo.scenarioB) 0%nat Demo.usdc10 Demo.eth)
              _ _ _ _ _ _ _ _ _ _ eq_refl))).
    right. unfold coupledQuote. cbn. split; [reflexivity | discriminate].
  - eapply (proj2 (proj2 (@coupling_inherited _ _ _ _
              (Demo.collaborators Demo.scenarioA) 0%nat Demo.usdc10 Demo.eth)
              _ _ _ _ _ _ _ _ _ _ eq_refl)).
    reflexivity.
Defined.

(** ** Absent arguments *)

(** C6, as stated, fails: with no amount entered the debouncer settles on
    [undefined], the routing API reports [INVALID], and the hook returns that
    state, not [LOADING]. *)
Lemma absent_argument_counterexample :
  let r := result (Demo.renderIn Demo.blank None Demo.eth) in
  r = {| state := INVALID; trade := None; router := UNISWAP_API |}
  /\ ~ (state r = LOADING /\ trade r = None).
Proof.
  cbv zeta. split; [reflexivity | ].
  cbn. intros [E _]. discriminate E.
Qed.

(** C6, amended.  For every call in which either argument is absent the
    render completes (three calls, nothing thrown by the hook itself); the
    absent arguments are handed on as they are, the amount to the debouncer
    and the currency to the routing API; and the returned object is [LOADING]
    with a null trade if and only if debouncing is reported or the quote of
    the selected source is itself [LOADING] with a null trade. *)
Theorem absent_arguments_forwarded
    (Amount Currency : Type) (Trade : TradeType -> Type) (S : Type)
    (h : Handler Amount Currency Trade S) (s : S)
    (amount : option Amount) (currency : option Currency) :
  amount = None \/ currency = None ->
  (exists d deb remote la lc local,
      log (exec h (useV3TradeExactIn amount currency) s) =
        [DebounceR amount 250 (d, deb); RouterExactInR d currency remote;
         LocalExactInR la lc local]
      /\ (inert (result (exec h (useV3TradeExactIn amount currency) s)) <->
          deb = true \/ inertQuote (selectedQuote deb remote local)))
  /\
  (exists d deb remote lc la local,
      log (exec h (useV3TradeExactOut currency amount) s) =
        [DebounceR amount 250 (d, deb); RouterExactOutR currency d remote;
         LocalExactOutR lc la local]
      /\ (inert (result (exec h (useV3TradeExactOut currency amount) s)) <->
          deb = true \/ inertQuote (selectedQuote deb remote local))).
Proof.
  intros _.
  assert (pass : forall (T : Type) (deb : bool) (remote local : Quote T),
             inert (if deb then debouncingResult
                    else if fallbackActive deb remote then withRouter local LEGACY
                    else withRouter remote UNISWAP_API) <->
             deb = true \/ inertQuote (selectedQuote deb remote local)).
  { intros T deb remote local. unfold selectedQuote. destruct deb.
    - split; [intros _; left; reflexivity | intros _; split; reflexivity].
    - destruct (fallbackActive false remote); unfold inert, inertQuote; cbn;
        (split; [intros C; right; exact C | intros [E | C]; [discriminate E | exact C]]). }
  split.
  - destruct (useV3TradeExactIn_run h s amount currency)
      as (d & deb & remote & local & s' & E).
    rewrite E. cbn [result log].
    eexists d, deb, remote, _, _, local. split; [reflexivity | apply pass].
  - destruct (useV3TradeExactOut_run h s currency amount)
      as (d & deb & remote & local & s' & E).
    rewrite E. cbn [result log].
    eexists d, deb, remote, _, _, local. split; [reflexivity | apply pass].
Qed.

(** No amount, and a routing API that has not answered yet. *)
Lemma absent_arguments_forwarded_witness :
  (@None Demo.Amount = None \/ Demo.eth = None)
  /\ inert (result (Demo.renderIn
                      (Demo.snapshot (None, false) Demo.idle Demo.idle) None Demo.eth)).
Proof.
  split; [left; reflexivity | ].
  destruct (proj1 (@absent_arguments_forwarded _ _ _ _
                     (Demo.collaborators (Demo.snapshot (None, false) Demo.idle Demo.idle))
                     0%nat None Demo.eth (or_introl eq_refl)))
    as (d & deb & remote & la & lc & local & L & I).
  apply I. right.
  cbv in L. injection L; intros; subst. split; reflexivity.
Defined.

(** ** The two directions *)

Lemma useV3TradeExactIn_policy
    (Amount Currency : Type) (Trade : TradeType -> Type)
    (amountIn : option Amount) (currencyOut : option Currency) :
  hook_equiv (Trade := Trade)
    (useV3TradeExactIn amountIn currencyOut)
    (fallbackPolicy useRouterTradeExactIn useLocalV3TradeExactIn amountIn currencyOut).
Proof.
  intros S h s.
  unfold useV3TradeExactIn, fallbackPolicy.
  cbn [bind ret Monad_Hook hook_bind useDebounce call exec].
  destruct (h _ (UseDebounce amountIn 250) s) as [[d deb] s1].
  cbn [hook_bind useRouterTradeExactIn call exec].
  destruct (h _ (UseRouterTradeExactIn d currencyOut) s1) as [remote s2].
  fold (fallbackActive deb remote).
  destruct (fallbackActive deb remote), deb; reflexivity.
Qed.

Lemma useV3TradeExactOut_policy
    (Amount Currency : Type) (Trade : TradeType -> Type)
    (currencyIn : option Currency) (amountOut : option Amount) :
  hook_equiv (Trade := Trade)
    (useV3TradeExactOut currencyIn amountOut)
    (fallbackPolicy
       (fun amount currency => useRouterTradeExactOut currency amount)
       (fun amount currency => useLocalV3TradeExactOut currency amount)
       amountOut currencyIn).
Proof.
  intros S h s.
  unfold useV3TradeExactOut, fallbackPolicy.
  cbn [bind ret Monad_Hook hook_bind useDebounce call exec].
  destruct (h _ (UseDebounce amountOut 250) s) as [[d deb] s1].
  cbn [hook_bind useRouterTradeExactOut call exec].
  destruct (h _ (UseRouterTradeExactOut currencyIn d) s1) as [remote s2].
  fold (fallbackActive deb remote).
  destruct (fallbackActive deb remote), deb; reflexivity.
Qed.

Lemma fallbackActive_shape {T U : Type} (deb : bool) (q : Quote T) (q' : Quote U) :
  quoteShape q = quoteShape q' -> fallbackActive deb q = fallbackActive deb q'.
Proof.
  unfold quoteShape, fallbackActive. intros E.
  injection E as E _. now rewrite E.
Qed.

(** C7.  The two hooks are one policy with the legs swapped.  Both run as
    the policy of the specification's section 4.4, exact-out with the
    debounced leg moved to the second argument of each quote-source call;
    and whenever a render of each sees the same debouncer reading and remote
    and local quotes of the same state and nullness, the two make the same
    [{state, trade-nullness, router}] decision, debounce the same value with
    the same window, and hand the same amount and currency to the remote and
    to the local source. *)
Theorem exact_in_out_symmetry
    (Amount Currency : Type) (Trade : TradeType -> Type)
    (amount : option Amount) (currency : option Currency) :
  hook_equiv (Trade := Trade)
    (useV3TradeExactIn amount currency)
    (fallbackPolicy useRouterTradeExactIn useLocalV3TradeExactIn amount currency)
  /\
  hook_equiv (Trade := Trade)
    (useV3TradeExactOut currency amount)
    (fallbackPolicy
       (fun a c => useRouterTradeExactOut c a)
       (fun a c => useLocalV3TradeExactOut c a)
       amount currency)
  /\
  (forall (S1 S2 : Type)
          (h1 : Handler Amount Currency Trade S1) (h2 : Handler Amount Currency Trade S2)
          (s1 : S1) (s2 : S2)
          v1 w1 v2 w2 d deb ra rc rin la lc lin rc' ra' rout lc' la' lout,
      log (exec h1 (useV3TradeExactIn amount currency) s1) =
        [DebounceR v1 w1 (d, deb); RouterExactInR ra rc rin; LocalExactInR la lc lin] ->
      log (exec h2 (useV3TradeExactOut currency amount) s2) =
        [DebounceR v2 w2 (d, deb); RouterExactOutR rc' ra' rout;
         LocalExactOutR lc' la' lout] ->
      quoteShape rin = quoteShape rout ->
      quoteShape lin = quoteShape lout ->
      decision (result (exec h1 (useV3TradeExactIn amount currency) s1)) =
      decision (result (exec h2 (useV3TradeExactOut currency amount) s2))
      /\ (v1, w1) = (v2, w2)
      /\ (ra, rc) = (ra', rc')
      /\ (la, lc) = (la', lc')).
Proof.
  split; [apply useV3TradeExactIn_policy | split; [apply useV3TradeExactOut_policy | ]].
  intros * Hin Hout Hr Hl.
  destruct (useV3TradeExactIn_run h1 s1 amount currency)
    as (d1 & deb1 & remote1 & local1 & t1 & Ein).
  destruct (useV3TradeExactOut_run h2 s2 currency amount)
    as (d2 & deb2 & remote2 & local2 & t2 & Eout).
  rewrite Ein in Hin |- *. rewrite Eout in Hout |- *.
  cbn [result log] in *.
  injection Hin; clear Hin; intros; name_readings.
  injection Hout; clear Hout; intros; name_readings.
  rewrite (fallbackActive_shape deb2 Hr).
  repeat split.
  destruct deb2; [reflexivity | ].
  unfold quoteShape in Hr, Hl. injection Hr as Hr1 Hr2. injection Hl as Hl1 Hl2.
  destruct (fallbackActive false remote2); unfold decision, withRouter; cbn;
    congruence.
Qed.

(** Scenario C seen by both hooks. *)
Lemma exact_in_out_symmetry_witness :
  decision (result (Demo.renderIn Demo.scenarioC Demo.usdc10 Demo.eth)) =
  decision (result (Demo.renderOut Demo.scenarioC Demo.eth Demo.usdc10))
  /\ decision (result (Demo.renderIn Demo.scenarioC Demo.usdc10 Demo.eth)) =
     (VALID, false, LEGACY).
Proof.
  split; [ | reflexivity].
  eapply (proj1 (proj2 (proj2 (@exact_in_out_symmetry _ _ Demo.Trade Demo.usdc10 Demo.eth))
            _ _ (Demo.collaborators Demo.scenarioC) (Demo.collaborators Demo.scenarioC)
            0%nat 0%nat
            _ _ _ _ _ _ _ _ _ _ _ _ _ _ _ _ _ _ eq_refl eq_refl eq_refl eq_refl)).
Defined.

(** ** No state of its own *)

(** C8.  The returned object is a function of the three answers of the
    render and of nothing else.  Two renders of the same hook return the same
    object whenever the debouncing flag, the remote quote and the local quote
    agree between them: the collaborators and their stores may differ (the
    second render may start from the store the first one left), and so may
    the arguments of the hook and the debounced amount, which the hook only
    hands on.  In particular identical inputs and identical collaborator
    outputs give identical objects. *)
Theorem result_determined_by_readings
    (Amount Currency : Type) (Trade : TradeType -> Type) (S1 S2 : Type)
    (h1 : Handler Amount Currency Trade S1) (h2 : Handler Amount Currency Trade S2)
    (s1 : S1) (s2 : S2)
    (amount1 amount2 : option Amount) (currency1 currency2 : option Currency) :
  (map answer (log (exec h1 (useV3TradeExactIn amount1 currency1) s1)) =
   map answer (log (exec h2 (useV3TradeExactIn amount2 currency2) s2)) ->
   result (exec h1 (useV3TradeExactIn amount1 currency1) s1) =
   result (exec h2 (useV3TradeExactIn amount2 currency2) s2))
  /\
  (map answer (log (exec h1 (useV3TradeExactOut currency1 amount1) s1)) =
   map answer (log (exec h2 (useV3TradeExactOut currency2 amount2) s2)) ->
   result (exec h1 (useV3TradeExactOut currency1 amount1) s1) =
   result (exec h2 (useV3TradeExactOut currency2 amount2) s2)).
Proof.
  split.
  - destruct (useV3TradeExactIn_run h1 s1 amount1 currency1)
      as (d1 & deb1 & remote1 & local1 & t1 & E1).
    destruct (useV3TradeExactIn_run h2 s2 amount2 currency2)
      as (d2 & deb2 & remote2 & local2 & t2 & E2).
    rewrite E1, E2. cbn [result log map answer]. intros A.
    injection A as -> -> ->. reflexivity.
  - destruct (useV3TradeExactOut_run h1 s1 currency1 amount1)
      as (d1 & deb1 & remote1 & local1 & t1 & E1).
    destruct (useV3TradeExactOut_run h2 s2 currency2 amount2)
      as (d2 & deb2 & remote2 & local2 & t2 & E2).
    rewrite E1, E2. cbn [result log map answer]. intros A.
    injection A as -> -> ->. reflexivity.
Qed.

(** Scenario C rendered twice in a row, the second time from the store the
    first render left and on another amount: the collaborators' call counter
    moves on, the answers are the same, and so is the returned object. *)
Lemma result_determined_by_readings_witness :
  store (Demo.renderIn Demo.scenarioC Demo.usdc10 Demo.eth) = 3%nat
  /\ store (exec (Demo.collaborators Demo.scenarioC)
              (useV3TradeExactIn Demo.usdc5 Demo.eth)
              (store (Demo.renderIn Demo.scenarioC Demo.usdc10 Demo.eth))) = 6%nat
  /\ result (exec (Demo.collaborators Demo.scenarioC)
               (useV3TradeExactIn Demo.usdc10 Demo.eth) 0%nat) =
     result (exec (Demo.collaborators Demo.scenarioC)
               (useV3TradeExactIn Demo.usdc5 Demo.eth)
               (store (Demo.renderIn Demo.scenarioC Demo.usdc10 Demo.eth))).
Proof.
  split; [reflexivity | split; [reflexivity | ]].
  apply (proj1 (@result_determined_by_readings _ _ _ _ _
                  (Demo.collaborators Demo.scenarioC) (Demo.collaborators Demo.scenarioC)
                  0%nat (store (Demo.renderIn Demo.scenarioC Demo.usdc10 Demo.eth))
                  Demo.usdc10 Demo.usdc5 Demo.eth Demo.eth)).
  reflexivity.
Defined.

(** ** The debouncer *)

(** C9.  Every render of either hook calls the debouncer once, first, with
    the amount it was given and the window 250; the currency is not passed
    through the debouncer: the routing API receives it as given, next to the
    debounced amount, and the local source receives it as given or not at
    all. *)
Theorem debounce_variable_leg
    (Amount Currency : Type) (Trade : TradeType -> Type) (S : Type)
    (h : Handler Amount Currency Trade S) (s : S)
    (amount : option Amount) (currency : option Currency) :
  (exists d deb remote la lc local,
      log (exec h (useV3TradeExactIn amount currency) s) =
        [DebounceR amount 250 (d, deb); RouterExactInR d currency remote;
         LocalExactInR la lc local]
      /\ (la = d \/ la = None) /\ (lc = currency \/ lc = None))
  /\
  (exists d deb remote lc la local,
      log (exec h (useV3TradeExactOut currency amount) s) =
        [DebounceR amount 250 (d, deb); RouterExactOutR currency d remote;
         LocalExactOutR lc la local]
      /\ (la = d \/ la = None) /\ (lc = currency \/ lc = None)).
Proof.
  split.
  - destruct (useV3TradeExactIn_run h s amount currency)
      as (d & deb & remote & local & s' & E).
    rewrite E. cbn [log].
    eexists d, deb, remote, _, _, local. split; [reflexivity | ].
    destruct (fallbackActive deb remote); split; (now left) || (now right).
  - destruct (useV3TradeExactOut_run h s currency amount)
      as (d & deb & remote & local & s' & E).
    rewrite E. cbn [log].
    eexists d, deb, remote, _, _, local. split; [reflexivity | ].
    destruct (fallbackActive deb remote); split; (now left) || (now right).
Qed.

(** ** Provenance *)

(** C10.  In every render with [debouncing = false] the returned state and
    trade are, field by field, those of the one selected source (the local
    reading if the remote state is [NO_ROUTE_FOUND], the remote reading
    otherwise), the trade untouched; the only object the hook makes up
    itself is [{LOADING, null, UNISWAP_API}], returned while debouncing. *)
Theorem provenance
    (Amount Currency : Type) (Trade : TradeType -> Type) (S : Type)
    (h : Handler Amount Currency Trade S) (s : S)
    (amount : option Amount) (currency : option Currency) :
  (forall v w d deb ra rc remote la lc local,
      log (exec h (useV3TradeExactIn amount currency) s) =
        [DebounceR v w (d, deb); RouterExactInR ra rc remote; LocalExactInR la lc local] ->
      let r := result (exec h (useV3TradeExactIn amount currency) s) in
      (deb = false ->
       (quote_state remote = NO_ROUTE_FOUND /\
        state r = quote_state local /\ trade r = quote_trade local)
       \/
       (quote_state remote <> NO_ROUTE_FOUND /\
        state r = quote_state remote /\ trade r = quote_trade remote))
      /\
      (deb = true ->
       r = {| state := LOADING; trade := None; router := UNISWAP_API |}))
  /\
  (forall v w d deb rc ra remote lc la local,
      log (exec h (useV3TradeExactOut currency amount) s) =
        [DebounceR v w (d, deb); RouterExactOutR rc ra remote; LocalExactOutR lc la local] ->
      let r := result (exec h (useV3TradeExactOut currency amount) s) in
      (deb = false ->
       (quote_state remote = NO_ROUTE_FOUND /\
        state r = quote_state local /\ trade r = quote_trade local)
       \/
       (quote_state remote <> NO_ROUTE_FOUND /\
        state r = quote_state remote /\ trade r = quote_trade remote))
      /\
      (deb = true ->
       r = {| state := LOADING; trade := None; router := UNISWAP_API |})).
Proof.
  assert (origin : forall (T : Type) (deb : bool) (remote local : Quote T),
             let r := if deb then debouncingResult
                      else if fallbackActive deb remote then withRouter local LEGACY
                      else withRouter remote UNISWAP_API in
             (deb = false ->
              (quote_state remote = NO_ROUTE_FOUND /\
               state r = quote_state local /\ trade r = quote_trade local)
              \/
              (quote_state remote <> NO_ROUTE_FOUND /\
               state r = quote_state remote /\ trade r = quote_trade remote))
             /\
             (deb = true -> r = debouncingResult)).
  { intros T deb remote local. cbv zeta. destruct deb.
    - split; [discriminate | reflexivity].
    - split; [intros _ | discriminate].
      destruct (fallbackActive false remote) eqn:F.
      + apply fallbackActive_true in F. left. cbn. tauto.
      + apply fallbackActive_false in F. right. cbn.
        destruct F as [F | F]; [discriminate F | tauto]. }
  split; intros * H; cbv zeta.
  - read_in h s amount currency H. apply origin.
  - read_out h s currency amount H. apply origin.
Qed.

(** Scenario E: the local [NO_ROUTE_FOUND] is what comes back; scenario A:
    the made-up object. *)
Lemma provenance_witness :
  (state (result (Demo.renderIn Demo.scenarioE Demo.usdc10 Demo.eth)) = NO_ROUTE_FOUND
   /\ trade (result (Demo.renderIn Demo.scenarioE Demo.usdc10 Demo.eth)) = None)
  /\ result (Demo.renderOut Demo.scenarioA Demo.eth Demo.usdc10) =
     {| state := LOADING; trade := None; router := UNISWAP_API |}.
Proof.
  split.
  - destruct (proj1 (proj1 (@provenance _ _ _ _
                (Demo.collaborators Demo.scenarioE) 0%nat Demo.usdc10 Demo.eth)
                _ _ _ _ _ _ _ _ _ _ eq_refl) eq_refl)
      as [(_ & Hs & Ht) | (N & _)].
    + split; [exact Hs | exact Ht].
    + contradiction N. reflexivity.
  - eapply (proj2 (proj2 (@provenance _ _ _ _
              (Demo.collaborators Demo.scenarioA) 0%nat Demo.usdc10 Demo.eth)
              _ _ _ _ _ _ _ _ _ _ eq_refl)).
    reflexivity.
Defined.

(** * Further properties of the two hooks *)

(** The object a render returns, as a function of the three readings. *)
Lemma merged_cases {T : Type} (deb : bool) (remote local : Quote T) :
  let r := if deb then debouncingResult
           else if fallbackActive deb remote then withRouter local LEGACY
           else withRouter remote UNISWAP_API in
  (deb = true /\ r = debouncingResult)
  \/ (deb = false /\ quote_state remote = NO_ROUTE_FOUND /\
      fallbackActive deb remote = true /\ r = withRouter local LEGACY)
  \/ (deb = false /\ quote_state remote <> NO_ROUTE_FOUND /\
      fallbackActive deb remote = false /\ r = withRouter remote UNISWAP_API).
Proof.
  cbv zeta. destruct deb.
  - left. split; reflexivity.
  - right. destruct (fallbackActive false remote) eqn:F.
    + left. pose proof (proj1 (fallbackActive_true _ _) F) as [_ N].
      repeat split; assumption || reflexivity.
    + right. pose proof (proj1 (fallbackActive_false _ _) F) as [N | N];
        [discriminate N | ].
      repeat split; assumption || reflexivity.
Qed.

(** ** A surfaced [NO_ROUTE_FOUND] is final *)

(** X1.  Neither hook ever returns [NO_ROUTE_FOUND] tagged [UNISWAP_API]: in
    every render whose returned state is [NO_ROUTE_FOUND], debouncing had
    settled, the router is [LEGACY], and both the remote and the local
    source reported [NO_ROUTE_FOUND]. *)
Theorem no_route_found_is_final
    (Amount Currency : Type) (Trade : TradeType -> Type) (S : Type)
    (h : Handler Amount Currency Trade S) (s : S)
    (amount : option Amount) (currency : option Currency) :
  (forall v w d deb ra rc remote la lc local,
      log (exec h (useV3TradeExactIn amount currency) s) =
        [DebounceR v w (d, deb); RouterExactInR ra rc remote; LocalExactInR la lc local] ->
      state (result (exec h (useV3TradeExactIn amount currency) s)) = NO_ROUTE_FOUND ->
      deb = false
      /\ router (result (exec h (useV3TradeExactIn amount currency) s)) = LEGACY
      /\ quote_state remote = NO_ROUTE_FOUND
      /\ quote_state local = NO_ROUTE_FOUND)
  /\
  (forall v w d deb rc ra remote lc la local,
      log (exec h (useV3TradeExactOut currency amount) s) =
        [DebounceR v w (d, deb); RouterExactOutR rc ra remote; LocalExactOutR lc la local] ->
      state (result (exec h (useV3TradeExactOut currency amount) s)) = NO_ROUTE_FOUND ->
      deb = false
      /\ router (result (exec h (useV3TradeExactOut currency amount) s)) = LEGACY
      /\ quote_state remote = NO_ROUTE_FOUND
      /\ quote_state local = NO_ROUTE_FOUND).
Proof.
  assert (final : forall (T : Type) (deb : bool) (remote local : Quote T),
             let r := if deb then debouncingResult
                      else if fallbackActive deb remote then withRouter local LEGACY
                      else withRouter remote UNISWAP_API in
             state r = NO_ROUTE_FOUND ->
             deb = false /\ router r = LEGACY
             /\ quote_state remote = NO_ROUTE_FOUND
             /\ quote_state local = NO_ROUTE_FOUND).
  { intros T deb remote local.
    destruct (merged_cases deb remote local)
      as [(_ & ->) | [(D & N & _ & ->) | (_ & N & _ & ->)]]; cbn; intros St.
    - discriminate St.
    - repeat split; assumption.
    - contradiction. }
  split; intros * H.
  - read_in h s amount currency H. apply final; assumption.
  - read_out h s currency amount H. apply final; assumption.
Qed.

(** Scenario E. *)
Lemma no_route_found_is_final_witness :
  state (result (Demo.renderIn Demo.scenarioE Demo.usdc10 Demo.eth)) = NO_ROUTE_FOUND
  /\ router (result (Demo.renderIn Demo.scenarioE Demo.usdc10 Demo.eth)) = LEGACY
  /\ router (result (Demo.renderOut Demo.scenarioE Demo.eth Demo.usdc10)) = LEGACY.
Proof.
  split; [reflexivity | split].
  - eapply (proj1 (proj2 (proj1 (@no_route_found_is_final _ _ _ _
              (Demo.collaborators Demo.scenarioE) 0%nat Demo.usdc10 Demo.eth)
              _ _ _ _ _ _ _ _ _ _ eq_refl eq_refl))).
  - eapply (proj1 (proj2 (proj2 (@no_route_found_is_final _ _ _ _
              (Demo.collaborators Demo.scenarioE) 0%nat Demo.usdc10 Demo.eth)
              _ _ _ _ _ _ _ _ _ _ eq_refl eq_refl))).
Defined.

(** ** Where a returned trade comes from *)

(** X2.  A non-null returned trade is never shown while debouncing and always
    belongs to the source the router tag names: in every render that returns
    [trade = t], debouncing had settled and either the router is [LEGACY] and
    [t] is the local reading's trade, or the router is [UNISWAP_API], the
    remote state is not [NO_ROUTE_FOUND], and [t] is the remote reading's
    trade. *)
Theorem returned_trade_origin
    (Amount Currency : Type) (Trade : TradeType -> Type) (S : Type)
    (h : Handler Amount Currency Trade S) (s : S)
    (amount : option Amount) (currency : option Currency) :
  (forall v w d deb ra rc remote la lc local t,
      log (exec h (useV3TradeExactIn amount currency) s) =
        [DebounceR v w (d, deb); RouterExactInR ra rc remote; LocalExactInR la lc local] ->
      trade (result (exec h (useV3TradeExactIn amount currency) s)) = Some t ->
      deb = false
      /\ ((router (result (exec h (useV3TradeExactIn amount currency) s)) = LEGACY
           /\ quote_trade local = Some t)
          \/
          (router (result (exec h (useV3TradeExactIn amount currency) s)) = UNISWAP_API
           /\ quote_state remote <> NO_ROUTE_FOUND
           /\ quote_trade remote = Some t)))
  /\
  (forall v w d deb rc ra remote lc la local t,
      log (exec h (useV3TradeExactOut currency amount) s) =
        [DebounceR v w (d, deb); RouterExactOutR rc ra remote; LocalExactOutR lc la local] ->
      trade (result (exec h (useV3TradeExactOut currency amount) s)) = Some t ->
      deb = false
      /\ ((router (result (exec h (useV3TradeExactOut currency amount) s)) = LEGACY
           /\ quote_trade local = Some t)
          \/
          (router (result (exec h (useV3TradeExactOut currency amount) s)) = UNISWAP_API
           /\ quote_state remote <> NO_ROUTE_FOUND
           /\ quote_trade remote = Some t))).
Proof.
  assert (origin : forall (T : Type) (deb : bool) (remote local : Quote T) (t : T),
             let r := if deb then debouncingResult
                      else if fallbackActive deb remote then withRouter local LEGACY
                      else withRouter remote UNISWAP_API in
             trade r = Some t ->
             deb = false
             /\ ((router r = LEGACY /\ quote_trade local = Some t)
                 \/ (router r = UNISWAP_API
                     /\ quote_state remote <> NO_ROUTE_FOUND
                     /\ quote_trade remote = Some t))).
  { intros T deb remote local t.
    destruct (merged_cases deb remote local)
      as [(_ & ->) | [(D & N & _ & ->) | (D & N & _ & ->)]]; cbn; intros Tr.
    - discriminate Tr.
    - split; [exact D | left; split; [reflexivity | exact Tr]].
    - split; [exact D | right; repeat split; assumption]. }
  split; intros * H.
  - read_in h s amount currency H. apply origin; assumption.
  - read_out h s currency amount H. apply origin; assumption.
Qed.

(** Scenario C returns the local router's [tradeY], scenario B the routing
    API's [tradeX]. *)
Lemma returned_trade_origin_witness :
  trade (result (Demo.renderIn Demo.scenarioC Demo.usdc10 Demo.eth)) =
    Some "tradeY"%string
  /\ trade (result (Demo.renderOut Demo.scenarioB Demo.eth Demo.usdc10)) =
    Some "tradeX"%string
  /\ (false = false /\ false = false).
Proof.
  split; [reflexivity | split; [reflexivity | split]].
  - eapply (proj1 (proj1 (@returned_trade_origin _ _ _ _
              (Demo.collaborators Demo.scenarioC) 0%nat Demo.usdc10 Demo.eth)
              _ _ _ _ _ _ _ _ _ _ _ eq_refl eq_refl)).
  - eapply (proj1 (proj2 (@returned_trade_origin _ _ _ _
              (Demo.collaborators Demo.scenarioB) 0%nat Demo.usdc10 Demo.eth)
              _ _ _ _ _ _ _ _ _ _ _ eq_refl eq_refl)).
Defined.

(** ** The source that is not selected *)

(** X3.  The answer of the source that is not selected has no influence on
    what is returned, and neither have the hook's own arguments.  Take two
    renders of the same hook, on any arguments, by any collaborators, both
    settled.  If the remote quote is the same in both and its state is not
    [NO_ROUTE_FOUND], they return the same object whatever the local source
    answered.  If the remote state is [NO_ROUTE_FOUND] in both and the local
    quote is the same, they return the same object whatever else the remote
    quotes held. *)
Theorem unselected_source_ignored
    (Amount Currency : Type) (Trade : TradeType -> Type) (S1 S2 : Type)
    (h1 : Handler Amount Currency Trade S1) (h2 : Handler Amount Currency Trade S2)
    (s1 : S1) (s2 : S2)
    (amount1 amount2 : option Amount) (currency1 currency2 : option Currency) :
  (forall v1 w1 d1 ra1 rc1 la1 lc1 local1 v2 w2 d2 ra2 rc2 la2 lc2 local2 remote,
      log (exec h1 (useV3TradeExactIn amount1 currency1) s1) =
        [DebounceR v1 w1 (d1, false); RouterExactInR ra1 rc1 remote;
         LocalExactInR la1 lc1 local1] ->
      log (exec h2 (useV3TradeExactIn amount2 currency2) s2) =
        [DebounceR v2 w2 (d2, false); RouterExactInR ra2 rc2 remote;
         LocalExactInR la2 lc2 local2] ->
      quote_state remote <> NO_ROUTE_FOUND ->
      result (exec h1 (useV3TradeExactIn amount1 currency1) s1) =
      result (exec h2 (useV3TradeExactIn amount2 currency2) s2))
  /\
  (forall v1 w1 d1 ra1 rc1 remote1 la1 lc1 v2 w2 d2 ra2 rc2 remote2 la2 lc2 local,
      log (exec h1 (useV3TradeExactIn amount1 currency1) s1) =
        [DebounceR v1 w1 (d1, false); RouterExactInR ra1 rc1 remote1;
         LocalExactInR la1 lc1 local] ->
      log (exec h2 (useV3TradeExactIn amount2 currency2) s2) =
        [DebounceR v2 w2 (d2, false); RouterExactInR ra2 rc2 remote2;
         LocalExactInR la2 lc2 local] ->
      quote_state remote1 = NO_ROUTE_FOUND ->
      quote_state remote2 = NO_ROUTE_FOUND ->
      result (exec h1 (useV3TradeExactIn amount1 currency1) s1) =
      result (exec h2 (useV3TradeExactIn amount2 currency2) s2))
  /\
  (forall v1 w1 d1 rc1 ra1 lc1 la1 local1 v2 w2 d2 rc2 ra2 lc2 la2 local2 remote,
      log (exec h1 (useV3TradeExactOut currency1 amount1) s1) =
        [DebounceR v1 w1 (d1, false); RouterExactOutR rc1 ra1 remote;
         LocalExactOutR lc1 la1 local1] ->
      log (exec h2 (useV3TradeExactOut currency2 amount2) s2) =
        [DebounceR v2 w2 (d2, false); RouterExactOutR rc2 ra2 remote;
         LocalExactOutR lc2 la2 local2] ->
      quote_state remote <> NO_ROUTE_FOUND ->
      result (exec h1 (useV3TradeExactOut currency1 amount1) s1) =
      result (exec h2 (useV3TradeExactOut currency2 amount2) s2))
  /\
  (forall v1 w1 d1 rc1 ra1 remote1 lc1 la1 v2 w2 d2 rc2 ra2 remote2 lc2 la2 local,
      log (exec h1 (useV3TradeExactOut currency1 amount1) s1) =
        [DebounceR v1 w1 (d1, false); RouterExactOutR rc1 ra1 remote1;
         LocalExactOutR lc1 la1 local] ->
      log (exec h2 (useV3TradeExactOut currency2 amount2) s2) =
        [DebounceR v2 w2 (d2, false); RouterExactOutR rc2 ra2 remote2;
         LocalExactOutR lc2 la2 local] ->
      quote_state remote1 = NO_ROUTE_FOUND ->
      quote_state remote2 = NO_ROUTE_FOUND ->
      result (exec h1 (useV3TradeExactOut currency1 amount1) s1) =
      result (exec h2 (useV3TradeExactOut currency2 amount2) s2)).
Proof.
  split; [ | split; [ | split]].
  - intros * H1 H2 N.
    read_in h1 s1 amount1 currency1 H1. read_in h2 s2 amount2 currency2 H2.
    rewrite !(proj2 (fallbackActive_false false _) (or_intror N)). reflexivity.
  - intros * H1 H2 N1 N2.
    read_in h1 s1 amount1 currency1 H1. read_in h2 s2 amount2 currency2 H2.
    rewrite (proj2 (fallbackActive_true false _) (conj eq_refl N1)).
    rewrite (proj2 (fallbackActive_true false _) (conj eq_refl N2)). reflexivity.
  - intros * H1 H2 N.
    read_out h1 s1 currency1 amount1 H1. read_out h2 s2 currency2 amount2 H2.
    rewrite !(proj2 (fallbackActive_false false _) (or_intror N)). reflexivity.
  - intros * H1 H2 N1 N2.
    read_out h1 s1 currency1 amount1 H1. read_out h2 s2 currency2 amount2 H2.
    rewrite (proj2 (fallbackActive_true false _) (conj eq_refl N1)).
    rewrite (proj2 (fallbackActive_true false _) (conj eq_refl N2)). reflexivity.
Qed.

(** Scenario D and the blank form: different amounts, different stores and
    different local quotes behind the same [INVALID] from the routing API. *)
Lemma unselected_source_ignored_witness :
  result (exec (Demo.collaborators Demo.scenarioD)
            (useV3TradeExactIn Demo.usdc10 Demo.eth) 0%nat) =
  result (exec (Demo.collaborators Demo.blank)
            (useV3TradeExactIn None Demo.eth) 5%nat)
  /\ Demo.localIn Demo.scenarioD <> Demo.localIn Demo.blank.
Proof.
  split; [ | discriminate].
  eapply (proj1 (@unselected_source_ignored _ _ _ _ _
                   (Demo.collaborators Demo.scenarioD) (Demo.collaborators Demo.blank)
                   0%nat 5%nat Demo.usdc10 None Demo.eth Demo.eth)
            _ _ _ _ _ _ _ _ _ _ _ _ _ _ _ _ _ eq_refl eq_refl).
  discriminate.
Defined.

(** ** What the router tag says about the local call *)

(** X4.  The router tag of the returned object tells what the local source
    was asked in that render: under [LEGACY] it was asked exactly what the
    remote source was asked (same amount, same currency); under
    [UNISWAP_API] it was called with both arguments [undefined]. *)
Theorem router_tag_tells_local_call
    (Amount Currency : Type) (Trade : TradeType -> Type) (S : Type)
    (h : Handler Amount Currency Trade S) (s : S)
    (amount : option Amount) (currency : option Currency) :
  (forall v w d deb ra rc remote la lc local,
      log (exec h (useV3TradeExactIn amount currency) s) =
        [DebounceR v w (d, deb); RouterExactInR ra rc remote; LocalExactInR la lc local] ->
      (router (result (exec h (useV3TradeExactIn amount currency) s)) = LEGACY ->
       la = ra /\ lc = rc)
      /\
      (router (result (exec h (useV3TradeExactIn amount currency) s)) = UNISWAP_API ->
       la = None /\ lc = None))
  /\
  (forall v w d deb rc ra remote lc la local,
      log (exec h (useV3TradeExactOut currency amount) s) =
        [DebounceR v w (d, deb); RouterExactOutR rc ra remote; LocalExactOutR lc la local] ->
      (router (result (exec h (useV3TradeExactOut currency amount) s)) = LEGACY ->
       lc = rc /\ la = ra)
      /\
      (router (result (exec h (useV3TradeExactOut currency amount) s)) = UNISWAP_API ->
       lc = None /\ la = None)).
Proof.
  assert (asked : forall (T A B : Type) (deb : bool) (remote local : Quote T)
                         (a : option A) (b : option B),
             let r := if deb then debouncingResult
                      else if fallbackActive deb remote then withRouter local LEGACY
                      else withRouter remote UNISWAP_API in
             let a' := if fallbackActive deb remote then a else None in
             let b' := if fallbackActive deb remote then b else None in
             (router r = LEGACY -> a' = a /\ b' = b)
             /\ (router r = UNISWAP_API -> a' = None /\ b' = None)).
  { intros T A B deb remote local a b. cbv zeta. destruct deb.
    - cbn. split; [discriminate | intros _; split; reflexivity].
    - destruct (fallbackActive false remote); cbn;
        (split; [ | ]); (discriminate || (intros _; split; reflexivity)). }
  split; intros * H.
  - read_in h s amount currency H. apply asked.
  - read_out h s currency amount H. apply asked.
Qed.

(** Scenario C: the local router is asked for 10 USDC to ETH, as the routing
    API was; scenario B: it is asked nothing. *)
Lemma router_tag_tells_local_call_witness :
  log (Demo.renderIn Demo.scenarioC Demo.usdc10 Demo.eth) =
    [DebounceR Demo.usdc10 250 (Demo.usdc10, false);
     RouterExactInR Demo.usdc10 Demo.eth (Demo.quote NO_ROUTE_FOUND None);
     LocalExactInR Demo.usdc10 Demo.eth (Demo.quote VALID (Some "tradeY"%string))]
  /\ (Demo.usdc10 = Demo.usdc10 /\ Demo.eth = Demo.eth)
  /\ (@None Demo.Currency = None /\ @None Demo.Amount = None).
Proof.
  split; [reflexivity | split].
  - eapply (proj1 (proj1 (@router_tag_tells_local_call _ _ _ _
              (Demo.collaborators Demo.scenarioC) 0%nat Demo.usdc10 Demo.eth)
              _ _ _ _ _ _ _ _ _ _ eq_refl)).
    reflexivity.
  - eapply (proj2 (proj2 (@router_tag_tells_local_call _ _ _ _
              (Demo.collaborators Demo.scenarioB) 0%nat Demo.usdc10 Demo.eth)
              _ _ _ _ _ _ _ _ _ _ eq_refl)).
    reflexivity.
Defined.
